(** * lab-gen: the conversation service

    A shallow embedding of [lab_gen/services/conversation/conversation.py]
    (class [ConversationService]) and the properties of its session
    life cycle: [start], [get], [history], [end], [delete_history] and the
    per-call configuration built by [generate_config].

    Python state (the Cosmos container behind the chat histories, the
    process environment, the metrics provider, the random source of
    [uuid.uuid4]) is gathered in a record [World]; every method is a
    computation in a small state-and-exception monad over it. *)

From Stdlib Require Import ZArith Lia.
From stdpp Require Import gmap strings list fin_maps.

Open Scope string_scope.
Open Scope list_scope.

(** ** Data model *)

(** Modelled from the spec: the enum [lab_gen.datatypes.models.ModelProvider]
    is declared outside the sources at hand.  [generate_config] names three
    members; any further member of the enum is [OTHER], told apart by its
    name. *)
Inductive ModelProvider :=
  | AZURE
  | VERTEX
  | BEDROCK
  | OTHER (name : string).

#[global] Instance ModelProvider_eq_dec : EqDecision ModelProvider.
Proof. solve_decision. Defined.

(** Modelled from the spec: [lab_gen.datatypes.metadata.ConversationMetadata],
    the record of provider, variant and business user (spec, section 3). *)
Record ConversationMetadata := {
  provider : ModelProvider;
  variant : string;
  business_user : string;
}.

#[global] Instance ConversationMetadata_eq_dec : EqDecision ConversationMetadata.
Proof. solve_decision. Defined.

(** Values of the dictionary that [model_dump] produces: the enum member for
    the provider, text for the other two fields. *)
Inductive DictValue :=
  | VProvider (p : ModelProvider)
  | VStr (s : string).

#[global] Instance DictValue_eq_dec : EqDecision DictValue.
Proof. solve_decision. Defined.

(** Modelled from the spec: what pydantic's [model_dump] and
    [model_validate] do on the three fields of [ConversationMetadata], whose
    declaration is not among the sources. *)
Definition model_dump (meta : ConversationMetadata) : gmap string DictValue :=
  <["provider" := VProvider (provider meta)]>
    (<["variant" := VStr (variant meta)]>
       (<["business_user" := VStr (business_user meta)]> ∅)).

Definition model_validate (d : gmap string DictValue) : option ConversationMetadata :=
  match d !! "provider", d !! "variant", d !! "business_user" with
  | Some (VProvider p), Some (VStr v), Some (VStr b) =>
      Some {| provider := p; variant := v; business_user := b |}
  | _, _, _ => None
  end.

(** [langchain_core.messages.BaseMessage]: a role tag and a text. *)
Record BaseMessage := {
  type : string;
  content : string;
}.

#[global] Instance BaseMessage_eq_dec : EqDecision BaseMessage.
Proof. solve_decision. Defined.

Definition SystemMessage (text : string) : BaseMessage :=
  {| type := "system"; content := text |}.
Definition HumanMessage (text : string) : BaseMessage :=
  {| type := "human"; content := text |}.
Definition AIMessage (text : string) : BaseMessage :=
  {| type := "ai"; content := text |}.

Definition SYSTEM_MESSAGE : BaseMessage :=
  SystemMessage "You are a helpful AI bot, gifted at answering questions.".

(** A backend handle; it is known by the provider and variant it was
    resolved from. *)
Record BaseLanguageModel := {
  llm_provider : ModelProvider;
  llm_variant : string;
}.

(** Modelled from the spec: [lab_gen.services.llm.lifetime.get_llm] is not
    among the sources.  Backend resolution is a pure function of provider
    and variant, with no further negotiation (spec, section 6). *)
Definition get_llm (p : ModelProvider) (v : string) : BaseLanguageModel :=
  {| llm_provider := p; llm_variant := v |}.

(** Prompt templates: a string template is text with holes for the input. *)
Inductive TemplatePiece :=
  | Lit (text : string)
  | InputVar.

Definition StringPromptTemplate := list TemplatePiece.

Inductive MessageLike :=
  | Fixed (m : BaseMessage)
  | HumanMessagePromptTemplate (prompt : StringPromptTemplate)
  | HumanInput
  | MessagesPlaceholder (variable_name : string).

Definition ChatPromptTemplate := list MessageLike.

(** The observers attached to a call.  The classes are imported from
    [lab_gen.services.metrics], [lab_gen.services.conversation.block_content]
    and [langfuse]; the service only constructs them, each tracker over the
    backend handle, the trace handler stamped with a user and a session. *)
Inductive Callback :=
  | LLMMetricsCounter (llm : BaseLanguageModel)
  | AzureBlockedContentTracker (llm : BaseLanguageModel)
  | VertexBlockedContentTracker (llm : BaseLanguageModel)
  | BedrockBlockedContentTracker (llm : BaseLanguageModel)
  | BlockedContentTracker (llm : BaseLanguageModel)
  | CallbackHandler (user_id session_id : string).

Record Configurable := {
  cfg_user_id : string;
  cfg_conversation_id : string;
  cfg_metadata : gmap string DictValue;
}.

Record Config := {
  callbacks : list Callback;
  configurable : Configurable;
}.

Record ConfigurableFieldSpec := {
  field_id : string;
  field_name : string;
  field_description : string;
  field_default : string;
  field_is_shared : bool;
}.

(** [RunnableWithMessageHistory]: the chain [prompt | llm | StrOutputParser()]
    wrapped with the history factory and its configurable fields, and the
    prompt id bound by [with_config]. *)
Record RunnableWithMessageHistory := {
  chain_prompt : ChatPromptTemplate;
  chain_llm : BaseLanguageModel;
  input_messages_key : string;
  history_messages_key : string;
  history_factory_config : list ConfigurableFieldSpec;
  chain_prompt_id : option string;
}.

(** The one member of [lab_gen.services.metrics.metrics.Metric] that the
    service counts. *)
Inductive Metric := COUNT_CHAT_REQUESTS.

(** One document of the Cosmos container: the turns of a session and the
    metadata stored with them. *)
Record Item := {
  item_messages : list BaseMessage;
  item_metadata : option ConversationMetadata;
}.

(** ** The world and the monad *)

Record World := {
  cosmos : gmap (string * string) Item;
  environ : gmap string string;
  counted : list (Metric * gmap string DictValue);
  uuid_source : nat -> string;
  entropy : nat;
  backend : BaseLanguageModel -> list BaseMessage -> option string;
}.

Inductive Exception :=
  | NoConversationError (conversation_id : string)
  | KeyError (key : string)
  | IndexError
  | ValidationError
  | BackendError.

Inductive Result (A : Type) :=
  | Ok (a : A)
  | Raise (e : Exception).
Arguments Ok {A} a.
Arguments Raise {A} e.

Definition M (A : Type) : Type := World -> Result A * World.

Definition ret {A} (a : A) : M A := fun w => (Ok a, w).
Definition raise {A} (e : Exception) : M A := fun w => (Raise e, w).
Definition bind {A B} (m : M A) (k : A -> M B) : M B :=
  fun w =>
    match m w with
    | (Ok a, w') => k a w'
    | (Raise e, w') => (Raise e, w')
    end.

Notation "'let!' x ':=' m 'in' k" := (bind m (fun x => k))
  (at level 10, x name, m at level 100, k at level 200).
Notation "m ;;; k" := (bind m (fun _ => k))
  (at level 100, right associativity).

Definition set_cosmos (c : gmap (string * string) Item) (w : World) : World :=
  {| cosmos := c; environ := environ w; counted := counted w;
     uuid_source := uuid_source w; entropy := entropy w; backend := backend w |}.

(** [str(uuid.uuid4())]: the next draw of the random source. *)
Definition uuid4 : M string :=
  fun w =>
    (Ok (uuid_source w (entropy w)),
     {| cosmos := cosmos w; environ := environ w; counted := counted w;
        uuid_source := uuid_source w; entropy := S (entropy w);
        backend := backend w |}).

(** [os.getenv]. *)
Definition getenv (name : string) : M (option string) :=
  fun w => (Ok (environ w !! name), w).

(** [self.app.state.metrics_provider.increment]. *)
Definition increment (metric : Metric) (dims : gmap string DictValue) : M unit :=
  fun w =>
    (Ok tt,
     {| cosmos := cosmos w; environ := environ w;
        counted := counted w ++ [(metric, dims)];
        uuid_source := uuid_source w; entropy := entropy w;
        backend := backend w |}).

(** ** The history accessor *)

(** Modelled from the spec: the class
    [lab_gen.services.cosmos.cosmos_db.CosmosDBChatMessageHistory] is not
    among the sources.  A handle is the (user, session) pair it was resolved
    for, the turns loaded for it and the metadata it carries (spec,
    section 4.3). *)
Record CosmosDBChatMessageHistory := {
  session_id : string;
  user_id : string;
  messages : list BaseMessage;
  metadata : option ConversationMetadata;
}.

(** The turns and the metadata that the container holds for a session; none
    when it holds no document for it. *)
Definition stored_messages (w : World) (user conversation : string) : list BaseMessage :=
  match cosmos w !! (user, conversation) with
  | Some item => item_messages item
  | None => []
  end.

Definition stored_metadata (w : World) (user conversation : string)
  : option ConversationMetadata :=
  match cosmos w !! (user, conversation) with
  | Some item => item_metadata item
  | None => None
  end.

(** Modelled from the spec: the constructor of the absent class.  Resolving
    never fails; an unknown id yields a handle over an empty history;
    metadata that is supplied is attached to the handle, otherwise the handle
    carries the stored metadata, if any (spec, sections 4.3 and 4.5). *)
Definition CosmosDBChatMessageHistory_init
    (session user : string) (meta : option ConversationMetadata)
  : M CosmosDBChatMessageHistory :=
  fun w =>
    (Ok {| session_id := session;
           user_id := user;
           messages := stored_messages w user session;
           metadata := match meta with
                       | Some m => Some m
                       | None => stored_metadata w user session
                       end |},
     w).

(** Modelled from the spec: persisting a handle of the absent class writes
    its turns, with the metadata it carries, as the document of its
    (user, session) pair (spec, section 3: the metadata is owned by the
    accessor's persisted record). *)
Definition upsert (h : CosmosDBChatMessageHistory) (msgs : list BaseMessage) : M unit :=
  fun w =>
    (Ok tt,
     set_cosmos
       (<[(user_id h, session_id h) :=
            {| item_messages := msgs; item_metadata := metadata h |}]> (cosmos w))
       w).

(** Modelled from the spec: [append] of the absent class persists new turns
    at the end of the log (spec, section 4.3). *)
Definition add_messages (h : CosmosDBChatMessageHistory) (new : list BaseMessage) : M unit :=
  upsert h (messages h ++ new).

(** Modelled from the spec: [clear] of the absent class removes all turns of
    the (user, session) pair; no tombstone is kept and the metadata goes with
    them (spec, sections 3, 4.3 and 4.5). *)
Definition clear (h : CosmosDBChatMessageHistory) : M unit :=
  fun w => (Ok tt, set_cosmos (delete (user_id h, session_id h) (cosmos w)) w).

(** Modelled from the spec: [delete(index)] of the absent class removes
    exactly one turn at a zero-based position and fails with an out-of-range
    condition if that position does not exist in the log (spec,
    section 4.3). *)
Definition delete_at (index : Z) (h : CosmosDBChatMessageHistory) : M unit :=
  if decide (0 <= index < Z.of_nat (length (messages h)))%Z
  then upsert h (delete (Z.to_nat index) (messages h))
  else raise IndexError.

(** ** The service *)

Record ConversationService := {
  examples : gmap string (list string);
  prompts : gmap string StringPromptTemplate;
}.

(** [create_chain], lines 49-92. *)
Definition create_chain (self : ConversationService)
    (llm : BaseLanguageModel) (prompt : ChatPromptTemplate)
  : RunnableWithMessageHistory :=
  {| chain_prompt := prompt;
     chain_llm := llm;
     input_messages_key := "input";
     history_messages_key := "history";
     history_factory_config :=
       [ {| field_id := "conversation_id";
            field_name := "Conversation ID";
            field_description := "Unique identifier for a conversation.";
            field_default := "";
            field_is_shared := true |};
         {| field_id := "user_id";
            field_name := "User ID";
            field_description := "Unique identifier for a user.";
            field_default := "";
            field_is_shared := true |};
         {| field_id := "metadata";
            field_name := "Metadata";
            field_description := "Metadata about the conversation.";
            field_default := "";
            field_is_shared := true |} ];
     chain_prompt_id := None |}.

Definition with_config (chain : RunnableWithMessageHistory) (prompt_id : string)
  : RunnableWithMessageHistory :=
  {| chain_prompt := chain_prompt chain;
     chain_llm := chain_llm chain;
     input_messages_key := input_messages_key chain;
     history_messages_key := history_messages_key chain;
     history_factory_config := history_factory_config chain;
     chain_prompt_id := Some prompt_id |}.

(** The [match meta.provider] of [generate_config], lines 106-114. *)
Definition blocked_content_counter (p : ModelProvider) (llm : BaseLanguageModel)
  : Callback :=
  match p with
  | AZURE => AzureBlockedContentTracker llm
  | VERTEX => VertexBlockedContentTracker llm
  | BEDROCK => BedrockBlockedContentTracker llm
  | _ => BlockedContentTracker llm
  end.

(** Truth value of [os.getenv(...)]: set, and not the empty string. *)
Definition truthy (v : option string) : bool :=
  match v with
  | Some s => negb (String.eqb s "")
  | None => false
  end.

(** [generate_config], lines 94-131. *)
Definition generate_config (self : ConversationService)
    (meta : ConversationMetadata) (conversation_id : string)
    (llm : BaseLanguageModel) : M Config :=
  let metrics_counter := LLMMetricsCounter llm in
  let tracker := blocked_content_counter (provider meta) llm in
  let callbacks0 := [metrics_counter; tracker] in
  let! host := getenv "LANGFUSE_HOST" in
  let callbacks1 :=
    if truthy host
    then callbacks0 ++ [CallbackHandler (business_user meta) conversation_id]
    else callbacks0 in
  ret {| callbacks := callbacks1;
         configurable := {| cfg_user_id := business_user meta;
                            cfg_conversation_id := conversation_id;
                            cfg_metadata := model_dump meta |} |}.

Definition get_prompts (self : ConversationService) : gmap string (list string) :=
  examples self.

(** [get_prompt], lines 270-272: [self.prompts[prompt_id]], where a missing
    key raises [KeyError]. *)
Definition get_prompt (self : ConversationService) (prompt_id : string)
  : M StringPromptTemplate :=
  match prompts self !! prompt_id with
  | Some t => ret t
  | None => raise (KeyError prompt_id)
  end.

(** [start], lines 133-164. *)
Definition start (self : ConversationService)
    (meta : ConversationMetadata) (prompt_id : string)
  : M (Config * string * RunnableWithMessageHistory) :=
  let! conversation_id := uuid4 in
  let llm := get_llm (provider meta) (variant meta) in
  let! second :=
    (if negb (String.eqb prompt_id "default")
     then let! prompt := get_prompt self prompt_id in
          ret (HumanMessagePromptTemplate prompt)
     else ret HumanInput) in
  let chat_prompt := [Fixed SYSTEM_MESSAGE; second] in
  let chain_with_history := with_config (create_chain self llm chat_prompt) prompt_id in
  increment COUNT_CHAT_REQUESTS (model_dump meta) ;;;
  let! config := generate_config self meta conversation_id llm in
  ret (config, conversation_id, chain_with_history).

(** [get_message_history], lines 191-215. *)
Definition get_message_history (self : ConversationService)
    (user conversation : string) (meta_dict : option (gmap string DictValue))
  : M CosmosDBChatMessageHistory :=
  let! meta :=
    match meta_dict with
    | None => ret None
    | Some d =>
        match model_validate d with
        | Some m => ret (Some m)
        | None => raise ValidationError
        end
    end in
  CosmosDBChatMessageHistory_init conversation user meta.

(** [get], lines 166-189. *)
Definition get (self : ConversationService) (conversation_id user : string)
  : M (Config * RunnableWithMessageHistory) :=
  let! history := get_message_history self user conversation_id None in
  match metadata history with
  | Some meta =>
      let llm := get_llm (provider meta) (variant meta) in
      increment COUNT_CHAT_REQUESTS (model_dump meta) ;;;
      let! config := generate_config self meta conversation_id llm in
      let prompt := [MessagesPlaceholder "history"; HumanInput] in
      ret (config, create_chain self llm prompt)
  | None => raise (NoConversationError conversation_id)
  end.

(** [_message_to_dict] and [history], lines 217-245. *)
Definition _message_to_dict (self : ConversationService) (message : BaseMessage)
  : gmap string string :=
  <["role" := type message]> (<["content" := content message]> ∅).

Definition history (self : ConversationService) (user conversation_id : string)
  : M (list (gmap string string)) :=
  let! h := get_message_history self user conversation_id None in
  match messages h with
  | _ :: _ => ret (_message_to_dict self <$> messages h)
  | [] => raise (NoConversationError conversation_id)
  end.

(** [end], lines 247-264; [end] is a keyword here, hence the underscore. *)
Definition end_ (self : ConversationService) (user conversation_id : string) : M unit :=
  let! h := get_message_history self user conversation_id None in
  match messages h with
  | _ :: _ => clear h
  | [] => raise (NoConversationError conversation_id)
  end.

(** [delete_history], lines 274-291. *)
Definition delete_history (self : ConversationService)
    (user conversation_id : string) (num_entries : Z) : M unit :=
  let! h := get_message_history self user conversation_id None in
  if Nat.ltb 0 (length (messages h))
  then delete_at num_entries h
  else raise (NoConversationError conversation_id).

(** ** The pipeline *)

(** Rendering of a string template and of a chat template: the input fills
    the holes, and the prior turns take the place of the placeholder named
    by the history key. *)
Definition format (t : StringPromptTemplate) (input : string) : string :=
  foldr (fun piece acc =>
           match piece with
           | Lit text => String.append text acc
           | InputVar => String.append input acc
           end) "" t.

Definition format_messages (prompt : ChatPromptTemplate) (history_key : string)
    (hist : list BaseMessage) (input : string) : list BaseMessage :=
  concat (map (fun part =>
                 match part with
                 | Fixed m => [m]
                 | HumanMessagePromptTemplate t => [HumanMessage (format t input)]
                 | HumanInput => [HumanMessage input]
                 | MessagesPlaceholder variable =>
                     if String.eqb variable history_key then hist else []
                 end) prompt).

(** The backend is opaque: the world decides what it answers, or that the
    call fails. *)
Definition call_backend (llm : BaseLanguageModel) (rendered : list BaseMessage)
  : M string :=
  fun w =>
    match backend w llm rendered with
    | Some text => (Ok text, w)
    | None => (Raise BackendError, w)
    end.

(** Modelled from the spec: one call through the pipeline that
    [create_chain] builds.  The history handle is resolved by
    [get_message_history] from the three configurable fields; the template
    is rendered over the prior turns and the input; the backend is called;
    only after a successful call are the user turn and the response turn
    appended to the handle (spec, sections 4.4 and 5). *)
Definition invoke (self : ConversationService)
    (chain : RunnableWithMessageHistory) (input : string) (config : Config)
  : M string :=
  let c := configurable config in
  let! h := get_message_history self (cfg_user_id c) (cfg_conversation_id c)
              (Some (cfg_metadata c)) in
  let rendered := format_messages (chain_prompt chain)
                    (history_messages_key chain) (messages h) input in
  let! text := call_backend (chain_llm chain) rendered in
  add_messages h [HumanMessage input; AIMessage text] ;;;
  ret text.

(** ** Vocabulary of the statements *)

(** What [start] leaves behind in the world when it returns. *)
Definition started (w : World) (meta : ConversationMetadata) : World :=
  {| cosmos := cosmos w; environ := environ w;
     counted := counted w ++ [(COUNT_CHAT_REQUESTS, model_dump meta)];
     uuid_source := uuid_source w; entropy := S (entropy w);
     backend := backend w |}.

(** The content-safety trackers among the observers, and the one tracker
    that carries no provider-specific integration. *)
Definition is_safety_tracker (cb : Callback) : bool :=
  match cb with
  | AzureBlockedContentTracker _ | VertexBlockedContentTracker _
  | BedrockBlockedContentTracker _ | BlockedContentTracker _ => true
  | _ => false
  end.

Definition provider_specific (cb : Callback) : bool :=
  match cb with
  | AzureBlockedContentTracker _ | VertexBlockedContentTracker _
  | BedrockBlockedContentTracker _ => true
  | _ => false
  end.

(** A tracing endpoint counts as configured when [LANGFUSE_HOST] is set to a
    non-empty value. *)
Definition tracing_configured (w : World) : bool :=
  truthy (environ w !! "LANGFUSE_HOST").

(** ** Sample data for the closed instances below *)

Fixpoint tally (n : nat) : string :=
  match n with
  | O => ""
  | S k => String.append "i" (tally k)
  end.

Definition sample_uuid (n : nat) : string := String.append "c-" (tally n).

Definition sample_backend (llm : BaseLanguageModel) (rendered : list BaseMessage)
  : option string :=
  Some "hi there".

Definition sample_world : World :=
  {| cosmos := ∅; environ := ∅; counted := [];
     uuid_source := sample_uuid; entropy := 0; backend := sample_backend |}.

Definition traced_world : World :=
  {| cosmos := ∅; environ := {["LANGFUSE_HOST" := "https://trace.example"]};
     counted := []; uuid_source := sample_uuid; entropy := 0;
     backend := sample_backend |}.

Definition sample_service : ConversationService :=
  {| examples := ∅; prompts := {["summary" := [Lit "Summarise: "; InputVar]]} |}.

Definition sample_meta : ConversationMetadata :=
  {| provider := AZURE; variant := "v1"; business_user := "u1" |}.

(** What [start] returns for the sample metadata in the sample world. *)
Definition sample_config : Config :=
  {| callbacks := [LLMMetricsCounter (get_llm AZURE "v1");
                   AzureBlockedContentTracker (get_llm AZURE "v1")];
     configurable := {| cfg_user_id := "u1"; cfg_conversation_id := "c-";
                        cfg_metadata := model_dump sample_meta |} |}.

Definition sample_chain : RunnableWithMessageHistory :=
  with_config
    (create_chain sample_service (get_llm AZURE "v1")
       [Fixed SYSTEM_MESSAGE; HumanInput]) "default".

(** The same in the world with a tracing endpoint. *)
Definition traced_config : Config :=
  {| callbacks := [LLMMetricsCounter (get_llm AZURE "v1");
                   AzureBlockedContentTracker (get_llm AZURE "v1");
                   CallbackHandler "u1" "c-"];
     configurable := configurable sample_config |}.

(** The chain that [get] rebuilds for the sample session. *)
Definition resumed_chain : RunnableWithMessageHistory :=
  create_chain sample_service (get_llm AZURE "v1")
    [MessagesPlaceholder "history"; HumanInput].

(** The world after [start] and one call through the returned pipeline. *)
Definition after_first_turn : World :=
  match start sample_service sample_meta "default" sample_world with
  | (Ok (config, _, chain), w1) => snd (invoke sample_service chain "hello" config w1)
  | (Raise _, w1) => w1
  end.

(** ... and after both of its turns have been deleted again. *)
Definition after_deletes : World :=
  snd (delete_history sample_service "u1" "c-" 0
         (snd (delete_history sample_service "u1" "c-" 0 after_first_turn))).

(** A second session, of another user and on another provider, beside the
    first one. *)
Definition second_meta : ConversationMetadata :=
  {| provider := VERTEX; variant := "v2"; business_user := "u2" |}.

Definition two_sessions : World :=
  match start sample_service second_meta "summary" after_first_turn with
  | (Ok (config, _, chain), w1) => snd (invoke sample_service chain "report" config w1)
  | (Raise _, w1) => w1
  end.

(** The two destructive requests on a session, to state how they combine. *)
Inductive Removal :=
  | EndSession
  | DeleteTurn (index : Z).

Definition remove (self : ConversationService) (user c : string) (r : Removal)
  : M unit :=
  match r with
  | EndSession => end_ self user c
  | DeleteTurn index => delete_history self user c index
  end.

(** Two worlds answer every request on a session alike. *)
Definition same_answers (self : ConversationService) (user c : string)
    (w1 w2 : World) : Prop :=
  fst (get self c user w1) = fst (get self c user w2)
  ∧ fst (history self user c w1) = fst (history self user c w2)
  ∧ fst (end_ self user c w1) = fst (end_ self user c w2)
  ∧ ∀ index, fst (delete_history self user c index w1)
             = fst (delete_history self user c index w2).

(** * Properties *)

(** Running a method symbolically: unfold it together with the operations of
    the monad and reduce. *)
Ltac run_method f :=
  unfold f, bind, ret, raise, uuid4, getenv, increment, get_prompt; simpl.

(** ** Equations of the accessor and of the configuration *)

Lemma model_validate_dump (meta : ConversationMetadata) :
  model_validate (model_dump meta) = Some meta.
Proof. destruct meta as [p v b]. reflexivity. Qed.

Lemma get_message_history_stored (self : ConversationService)
    (user conversation : string) (w : World) :
  get_message_history self user conversation None w
  = (Ok {| session_id := conversation; user_id := user;
           messages := stored_messages w user conversation;
           metadata := stored_metadata w user conversation |}, w).
Proof. reflexivity. Qed.

Lemma get_message_history_supplied (self : ConversationService)
    (user conversation : string) (meta : ConversationMetadata) (w : World) :
  get_message_history self user conversation (Some (model_dump meta)) w
  = (Ok {| session_id := conversation; user_id := user;
           messages := stored_messages w user conversation;
           metadata := Some meta |}, w).
Proof.
  unfold get_message_history, bind. rewrite model_validate_dump. reflexivity.
Qed.

Lemma generate_config_eq (self : ConversationService)
    (meta : ConversationMetadata) (conversation_id : string)
    (llm : BaseLanguageModel) (w : World) :
  generate_config self meta conversation_id llm w
  = (Ok {| callbacks :=
             if tracing_configured w
             then [LLMMetricsCounter llm;
                   blocked_content_counter (provider meta) llm;
                   CallbackHandler (business_user meta) conversation_id]
             else [LLMMetricsCounter llm;
                   blocked_content_counter (provider meta) llm];
           configurable := {| cfg_user_id := business_user meta;
                              cfg_conversation_id := conversation_id;
                              cfg_metadata := model_dump meta |} |}, w).
Proof.
  unfold generate_config, tracing_configured, bind, getenv, ret.
  destruct (truthy (environ w !! "LANGFUSE_HOST")); reflexivity.
Qed.

Lemma start_inv (self : ConversationService) (meta : ConversationMetadata)
    (prompt_id : string) (w w' : World) (config : Config) (c : string)
    (chain : RunnableWithMessageHistory) :
  start self meta prompt_id w = (Ok (config, c, chain), w') →
  c = uuid_source w (entropy w)
  ∧ w' = started w meta
  ∧ generate_config self meta c (get_llm (provider meta) (variant meta)) w'
    = (Ok config, w')
  ∧ chain_llm chain = get_llm (provider meta) (variant meta)
  ∧ (prompt_id = "default" ∨ is_Some (prompts self !! prompt_id)).
Proof.
  run_method start.
  destruct (String.eqb prompt_id "default") eqn:Hid; simpl.
  - apply String.eqb_eq in Hid.
    intros [= <- <- <- <-]. rewrite generate_config_eq. split_and!; auto.
  - destruct (prompts self !! prompt_id) as [t|] eqn:Hp; simpl; [|discriminate].
    intros [= <- <- <- <-]. rewrite generate_config_eq. split_and!; eauto.
Qed.

Lemma start_known (self : ConversationService) (meta : ConversationMetadata)
    (prompt_id : string) (w : World) :
  prompt_id = "default" ∨ is_Some (prompts self !! prompt_id) →
  ∃ config chain,
    start self meta prompt_id w
    = (Ok (config, uuid_source w (entropy w), chain), started w meta).
Proof.
  intros Hknown. run_method start.
  destruct (String.eqb prompt_id "default") eqn:Hid; simpl.
  - eauto.
  - destruct Hknown as [->|[t Ht]]; [discriminate|].
    rewrite Ht. simpl. eauto.
Qed.

Lemma get_inv (self : ConversationService) (c user : string) (w w' : World)
    (config : Config) (chain : RunnableWithMessageHistory) :
  get self c user w = (Ok (config, chain), w') →
  ∃ meta,
    stored_metadata w user c = Some meta
    ∧ cosmos w' = cosmos w ∧ environ w' = environ w
    ∧ generate_config self meta c (get_llm (provider meta) (variant meta)) w'
      = (Ok config, w')
    ∧ chain_llm chain = get_llm (provider meta) (variant meta).
Proof.
  unfold get, bind. rewrite get_message_history_stored. simpl.
  destruct (stored_metadata w user c) as [meta|]; [|discriminate].
  unfold increment, ret. simpl.
  intros [= <- <- <-]. exists meta. rewrite generate_config_eq.
  split_and!; auto.
Qed.

Lemma get_stored (self : ConversationService) (c user : string) (w : World)
    (meta : ConversationMetadata) :
  stored_metadata w user c = Some meta →
  ∃ config w',
    get self c user w
    = (Ok (config,
           create_chain self (get_llm (provider meta) (variant meta))
             [MessagesPlaceholder "history"; HumanInput]), w')
    ∧ cfg_metadata (configurable config) = model_dump meta.
Proof.
  intros Hmeta. unfold get, bind. rewrite get_message_history_stored. simpl.
  rewrite Hmeta. unfold increment, ret. simpl. eauto.
Qed.

(** ** Instrumentation dispatch *)

(** C4, as amended.  The safety tracker of a configuration is a function of
    the provider alone: [generate_config] never raises and leaves the world
    as it was, and the only safety tracker among its observers is the Azure,
    Vertex or Bedrock tracker for the three providers the code names and the
    default [BlockedContentTracker] for every other provider value. *)
Theorem safety_tracker_by_provider (self : ConversationService)
    (meta : ConversationMetadata) (conversation_id : string)
    (llm : BaseLanguageModel) (w : World) :
  ∃ config,
    generate_config self meta conversation_id llm w = (Ok config, w)
    ∧ filter (λ cb, is_safety_tracker cb = true) (callbacks config)
      = [match provider meta with
         | AZURE => AzureBlockedContentTracker llm
         | VERTEX => VertexBlockedContentTracker llm
         | BEDROCK => BedrockBlockedContentTracker llm
         | OTHER _ => BlockedContentTracker llm
         end].
Proof.
  rewrite generate_config_eq. eexists. split; [reflexivity|]. simpl.
  destruct (tracing_configured w), (provider meta); reflexivity.
Qed.

(** C4, as stated, fails: there are no four distinct provider values that
    each get a provider-specific tracker; only three trackers other than the
    default exist, whatever the backend handle. *)
Lemma no_four_provider_specific_trackers :
  ¬ ∃ (p1 p2 p3 p4 : ModelProvider) (llm : BaseLanguageModel),
      NoDup [p1; p2; p3; p4]
      ∧ Forall (λ p, provider_specific (blocked_content_counter p llm) = true)
          [p1; p2; p3; p4].
Proof.
  intros (p1 & p2 & p3 & p4 & llm & Hnd & Hall).
  apply NoDup_cons in Hnd as [H1 Hnd].
  apply NoDup_cons in Hnd as [H2 Hnd].
  apply NoDup_cons in Hnd as [H3 _].
  rewrite !Forall_cons in Hall. destruct Hall as (A1 & A2 & A3 & A4 & _).
  destruct p1, p2, p3, p4; simpl in *; try discriminate; set_solver.
Qed.

(** C8.  Observers of every configuration: the metrics counter and one
    safety tracker, followed by one trace handler stamped with the
    conversation id and the business user exactly when a tracing endpoint is
    configured.  This holds for [generate_config] and so for the
    configurations that [start] and [get] return. *)
Theorem observers_of_configuration (self : ConversationService) :
  (∀ meta conversation_id llm w,
     ∃ config,
       generate_config self meta conversation_id llm w = (Ok config, w)
       ∧ callbacks config
         = [LLMMetricsCounter llm; blocked_content_counter (provider meta) llm]
           ++ (if tracing_configured w
               then [CallbackHandler (business_user meta) conversation_id]
               else []))
  ∧ (∀ meta prompt_id w config c chain w',
       start self meta prompt_id w = (Ok (config, c, chain), w') →
       callbacks config
       = [LLMMetricsCounter (chain_llm chain);
          blocked_content_counter (provider meta) (chain_llm chain)]
         ++ (if tracing_configured w
             then [CallbackHandler (business_user meta) c]
             else []))
  ∧ (∀ c user w config chain w',
       get self c user w = (Ok (config, chain), w') →
       ∃ meta,
         stored_metadata w user c = Some meta
         ∧ callbacks config
           = [LLMMetricsCounter (chain_llm chain);
              blocked_content_counter (provider meta) (chain_llm chain)]
             ++ (if tracing_configured w
                 then [CallbackHandler (business_user meta) c]
                 else [])).
Proof.
  split_and!.
  - intros. rewrite generate_config_eq. eexists. split; [reflexivity|].
    simpl. destruct (tracing_configured w); reflexivity.
  - intros * Hs. apply start_inv in Hs as (-> & -> & Hc & -> & _).
    rewrite generate_config_eq in Hc. injection Hc as <-. simpl.
    unfold tracing_configured, started. simpl.
    destruct (truthy (environ w !! "LANGFUSE_HOST")); reflexivity.
  - intros * Hg. apply get_inv in Hg as (meta & Hm & _ & He & Hc & ->).
    exists meta. split; [assumption|].
    rewrite generate_config_eq in Hc. injection Hc as <-. simpl.
    unfold tracing_configured. rewrite He.
    destruct (truthy (environ w !! "LANGFUSE_HOST")); reflexivity.
Qed.

(** ** Equations of the history operations *)

Lemma history_eq (self : ConversationService) (user c : string) (w : World) :
  history self user c w
  = (match stored_messages w user c with
     | [] => Raise (NoConversationError c)
     | _ :: _ => Ok (_message_to_dict self <$> stored_messages w user c)
     end, w).
Proof.
  unfold history, bind. rewrite get_message_history_stored. simpl.
  destruct (stored_messages w user c); reflexivity.
Qed.

Lemma end_eq (self : ConversationService) (user c : string) (w : World) :
  end_ self user c w
  = match stored_messages w user c with
    | [] => (Raise (NoConversationError c), w)
    | _ :: _ => (Ok tt, set_cosmos (delete (user, c) (cosmos w)) w)
    end.
Proof.
  unfold end_, bind. rewrite get_message_history_stored. simpl.
  destruct (stored_messages w user c); reflexivity.
Qed.

Lemma delete_history_eq (self : ConversationService) (user c : string)
    (index : Z) (w : World) :
  delete_history self user c index w
  = match stored_messages w user c with
    | [] => (Raise (NoConversationError c), w)
    | _ :: _ =>
        if decide (0 <= index < Z.of_nat (length (stored_messages w user c)))%Z
        then (Ok tt,
              set_cosmos
                (<[(user, c) :=
                     {| item_messages :=
                          delete (Z.to_nat index) (stored_messages w user c);
                        item_metadata := stored_metadata w user c |}]>
                   (cosmos w)) w)
        else (Raise IndexError, w)
    end.
Proof.
  unfold delete_history, bind. rewrite get_message_history_stored. simpl.
  destruct (stored_messages w user c) as [|m log] eqn:Hlog; [reflexivity|].
  simpl. unfold delete_at. simpl. case_decide; reflexivity.
Qed.

Lemma invoke_eq (self : ConversationService) (chain : RunnableWithMessageHistory)
    (input : string) (config : Config) (meta : ConversationMetadata)
    (c : string) (w : World) :
  configurable config
  = {| cfg_user_id := business_user meta; cfg_conversation_id := c;
       cfg_metadata := model_dump meta |} →
  invoke self chain input config w
  = match backend w (chain_llm chain)
            (format_messages (chain_prompt chain) (history_messages_key chain)
               (stored_messages w (business_user meta) c) input) with
    | Some text =>
        (Ok text,
         set_cosmos
           (<[(business_user meta, c) :=
                {| item_messages :=
                     stored_messages w (business_user meta) c
                     ++ [HumanMessage input; AIMessage text];
                   item_metadata := Some meta |}]> (cosmos w)) w)
    | None => (Raise BackendError, w)
    end.
Proof.
  intros Hc. unfold invoke, bind. rewrite Hc. simpl.
  rewrite get_message_history_supplied. simpl. unfold call_backend.
  destruct (backend w _ _); reflexivity.
Qed.

Lemma stored_messages_insert (w : World) (user c : string) (item : Item)
    (store : gmap (string * string) Item) :
  stored_messages (set_cosmos (<[(user, c) := item]> store) w) user c
  = item_messages item.
Proof. unfold stored_messages. simpl. by rewrite lookup_insert_eq. Qed.

Lemma stored_metadata_insert (w : World) (user c : string) (item : Item)
    (store : gmap (string * string) Item) :
  stored_metadata (set_cosmos (<[(user, c) := item]> store) w) user c
  = item_metadata item.
Proof. unfold stored_metadata. simpl. by rewrite lookup_insert_eq. Qed.

Lemma stored_messages_delete (w : World) (user c : string)
    (store : gmap (string * string) Item) :
  stored_messages (set_cosmos (delete (user, c) store) w) user c = [].
Proof. unfold stored_messages. simpl. by rewrite lookup_delete_eq. Qed.

Lemma stored_messages_by_document (user c : string) (w1 w2 : World) :
  cosmos w1 !! (user, c) = cosmos w2 !! (user, c) →
  stored_messages w1 user c = stored_messages w2 user c.
Proof. intros Hdoc. unfold stored_messages. by rewrite Hdoc. Qed.

(** The outcome of the three history operations for (user, c) depends on the
    world only through the document stored under (user, c). *)
Lemma outcomes_by_document (self : ConversationService) (user c : string)
    (w1 w2 : World) :
  cosmos w1 !! (user, c) = cosmos w2 !! (user, c) →
  fst (history self user c w1) = fst (history self user c w2)
  ∧ fst (end_ self user c w1) = fst (end_ self user c w2)
  ∧ ∀ index, fst (delete_history self user c index w1)
             = fst (delete_history self user c index w2).
Proof.
  intros Hdoc.
  pose proof (stored_messages_by_document _ _ _ _ Hdoc) as Hm.
  split_and!; [| |intros index];
    rewrite ?history_eq, ?end_eq, ?delete_history_eq, Hm;
    destruct (stored_messages w2 user c); simpl; try reflexivity.
  case_decide; reflexivity.
Qed.

(** ** Namespace of a session *)

(** C10.  Every configuration addresses the history under the business user
    of the metadata and under the conversation id; a call through the
    pipeline under such a configuration appends its two turns to the
    document of (business user, conversation) and to no other user's, so
    [history], [end] and [delete_history] reach those turns only when called
    with the business user. *)
Theorem configuration_addresses_business_user (self : ConversationService) :
  (∀ meta c llm w config w',
     generate_config self meta c llm w = (Ok config, w') →
     cfg_user_id (configurable config) = business_user meta
     ∧ cfg_conversation_id (configurable config) = c)
  ∧ (∀ meta prompt_id w config c chain w',
       start self meta prompt_id w = (Ok (config, c, chain), w') →
       cfg_user_id (configurable config) = business_user meta
       ∧ cfg_conversation_id (configurable config) = c)
  ∧ (∀ c user w config chain w',
       get self c user w = (Ok (config, chain), w') →
       ∃ meta, stored_metadata w user c = Some meta
               ∧ cfg_user_id (configurable config) = business_user meta
               ∧ cfg_conversation_id (configurable config) = c)
  ∧ (∀ meta c llm w0 config chain input w text w',
       generate_config self meta c llm w0 = (Ok config, w0) →
       invoke self chain input config w = (Ok text, w') →
       stored_messages w' (business_user meta) c
       = stored_messages w (business_user meta) c
         ++ [HumanMessage input; AIMessage text]
       ∧ fst (history self (business_user meta) c w')
         = Ok (_message_to_dict self
                 <$> stored_messages w (business_user meta) c
                     ++ [HumanMessage input; AIMessage text])
       ∧ ∀ user, user ≠ business_user meta →
           stored_messages w' user c = stored_messages w user c
           ∧ fst (history self user c w') = fst (history self user c w)
           ∧ fst (end_ self user c w') = fst (end_ self user c w)
           ∧ ∀ index, fst (delete_history self user c index w')
                      = fst (delete_history self user c index w)).
Proof.
  split_and!.
  - intros * Hc. rewrite generate_config_eq in Hc. by injection Hc as <- _.
  - intros * Hs. apply start_inv in Hs as (-> & -> & Hc & _).
    rewrite generate_config_eq in Hc. by injection Hc as <-.
  - intros * Hg. apply get_inv in Hg as (meta & Hm & _ & _ & Hc & _).
    exists meta. rewrite generate_config_eq in Hc. by injection Hc as <-.
  - intros * Hc Hi. rewrite generate_config_eq in Hc. injection Hc as <-.
    rewrite (invoke_eq _ _ _ _ meta c) in Hi by reflexivity.
    destruct (backend w _ _) as [t|]; [|discriminate].
    injection Hi as <- <-. split; [by rewrite stored_messages_insert|].
    split.
    { rewrite history_eq, stored_messages_insert. simpl.
      by destruct (stored_messages w (business_user meta) c). }
    intros user Hne.
    assert (cosmos (set_cosmos
                      (<[(business_user meta, c) :=
                           {| item_messages :=
                                stored_messages w (business_user meta) c
                                ++ [HumanMessage input; AIMessage t];
                              item_metadata := Some meta |}]> (cosmos w)) w)
              !! (user, c) = cosmos w !! (user, c)) as Hdoc.
    { simpl. apply lookup_insert_ne. congruence. }
    split; [by apply stored_messages_by_document|].
    by apply outcomes_by_document.
Qed.

(** ** Reading the history *)

(** C7.  [history] raises session-not-found exactly when the stored log is
    empty; otherwise it returns, without touching the world, one dictionary
    per stored message, in the order of the log, holding the message's type
    under "role" and its content under "content" and nothing else. *)
Theorem history_lists_the_log (self : ConversationService)
    (user c : string) (w : World) :
  (fst (history self user c w) = Raise (NoConversationError c)
   ↔ stored_messages w user c = [])
  ∧ (stored_messages w user c ≠ [] →
     ∃ turns,
       history self user c w = (Ok turns, w)
       ∧ length turns = length (stored_messages w user c)
       ∧ ∀ i m, stored_messages w user c !! i = Some m →
           ∃ d, turns !! i = Some d
                ∧ d !! "role" = Some (type m)
                ∧ d !! "content" = Some (content m)
                ∧ dom d = {["role"; "content"]}).
Proof.
  rewrite history_eq. split.
  - destruct (stored_messages w user c); simpl; split; congruence.
  - intros Hne. destruct (stored_messages w user c) as [|m0 log] eqn:Hlog;
      [congruence|].
    eexists. split; [reflexivity|]. split; [apply length_fmap|].
    intros i m Hi. exists (_message_to_dict self m).
    rewrite list_lookup_fmap, Hi. unfold _message_to_dict.
    split_and!; [reflexivity|by rewrite lookup_insert_eq| |].
    + rewrite lookup_insert_ne by done. by rewrite lookup_insert_eq.
    + rewrite !dom_insert_L, dom_empty_L. set_solver.
Qed.

(** ** Ending a session *)

(** C5.  [end] removes the stored log when it is not empty and raises
    session-not-found, changing nothing, when it is empty; whatever the
    first call did, an [end] right after it raises session-not-found. *)
Theorem end_clears_or_raises (self : ConversationService)
    (user c : string) (w : World) :
  (stored_messages w user c ≠ [] →
   ∃ w', end_ self user c w = (Ok tt, w')
         ∧ stored_messages w' user c = []
         ∧ ∀ key, key ≠ (user, c) → cosmos w' !! key = cosmos w !! key)
  ∧ (stored_messages w user c = [] →
     end_ self user c w = (Raise (NoConversationError c), w))
  ∧ fst (end_ self user c (snd (end_ self user c w)))
    = Raise (NoConversationError c).
Proof.
  rewrite (end_eq self user c w).
  destruct (stored_messages w user c) as [|m log] eqn:Hlog.
  - split_and!; [congruence|reflexivity|]. simpl. by rewrite end_eq, Hlog.
  - split_and!; [|congruence|].
    + intros _. eexists. split; [reflexivity|].
      split; [apply stored_messages_delete|].
      intros key Hkey. simpl. by apply lookup_delete_ne.
    + simpl. by rewrite end_eq, stored_messages_delete.
Qed.

(** ** Deleting one turn *)

(** C6.  [delete_history] on an empty log raises session-not-found; on a
    non-empty log an index at or beyond the length raises index-out-of-range
    and leaves the world, hence the log, as it was; an index inside the log
    removes exactly the turn at that zero-based position: the turns before
    it stay, the turns after it move up by one, the length drops by one and
    no other document changes. *)
Theorem delete_history_cases (self : ConversationService)
    (user c : string) (index : Z) (w : World) :
  (stored_messages w user c = [] →
   delete_history self user c index w = (Raise (NoConversationError c), w))
  ∧ (stored_messages w user c ≠ [] →
     (Z.of_nat (length (stored_messages w user c)) <= index)%Z →
     delete_history self user c index w = (Raise IndexError, w))
  ∧ ((0 <= index < Z.of_nat (length (stored_messages w user c)))%Z →
     ∃ w', delete_history self user c index w = (Ok tt, w')
           ∧ S (length (stored_messages w' user c))
             = length (stored_messages w user c)
           ∧ (∀ j : nat, (j < Z.to_nat index)%nat →
                stored_messages w' user c !! j = stored_messages w user c !! j)
           ∧ (∀ j : nat, (Z.to_nat index ≤ j)%nat →
                stored_messages w' user c !! j
                = stored_messages w user c !! S j)
           ∧ stored_metadata w' user c = stored_metadata w user c
           ∧ ∀ key, key ≠ (user, c) → cosmos w' !! key = cosmos w !! key).
Proof.
  rewrite delete_history_eq.
  destruct (stored_messages w user c) as [|m log] eqn:Hlog.
  - split_and!; [reflexivity|congruence|]. simpl. lia.
  - split_and!; [congruence| |].
    + intros _ Hge. case_decide; [lia|reflexivity].
    + intros Hin. case_decide; [|lia]. eexists. split; [reflexivity|].
      rewrite stored_messages_insert, stored_metadata_insert. simpl item_messages.
      split_and!.
      * rewrite length_delete; [simpl; lia|].
        apply lookup_lt_is_Some. lia.
      * intros j Hj. by apply list_lookup_delete_lt.
      * intros j Hj. by apply list_lookup_delete_ge.
      * reflexivity.
      * intros key Hkey. simpl. by apply lookup_insert_ne.
Qed.

(** ** Session-not-found *)

Lemma get_eq (self : ConversationService) (c user : string) (w : World) :
  fst (get self c user w)
  = match stored_metadata w user c with
    | Some meta =>
        Ok ({| callbacks :=
                 [LLMMetricsCounter (get_llm (provider meta) (variant meta));
                  blocked_content_counter (provider meta)
                    (get_llm (provider meta) (variant meta))]
                 ++ (if tracing_configured w
                     then [CallbackHandler (business_user meta) c]
                     else []);
               configurable := {| cfg_user_id := business_user meta;
                                  cfg_conversation_id := c;
                                  cfg_metadata := model_dump meta |} |},
            create_chain self (get_llm (provider meta) (variant meta))
              [MessagesPlaceholder "history"; HumanInput])
    | None => Raise (NoConversationError c)
    end.
Proof.
  unfold get, bind. rewrite get_message_history_stored. simpl.
  destruct (stored_metadata w user c) as [meta|]; [|reflexivity].
  unfold increment, ret, tracing_configured. simpl.
  destruct (truthy (environ w !! "LANGFUSE_HOST")); reflexivity.
Qed.

(** C9, as amended.  Each operation tests one condition only.  [get] raises
    exactly when the store holds no metadata for the session, whatever the
    history; [history] and [end] raise exactly when the stored log is empty,
    whatever the metadata; [delete_history] raises session-not-found exactly
    when the stored log is empty.  The error is always session-not-found for
    the conversation id that was passed. *)
Theorem session_not_found_by_operation (self : ConversationService)
    (user c : string) (w : World) :
  (∀ e, fst (get self c user w) = Raise e
        ↔ stored_metadata w user c = None ∧ e = NoConversationError c)
  ∧ (∀ e, fst (history self user c w) = Raise e
          ↔ stored_messages w user c = [] ∧ e = NoConversationError c)
  ∧ (∀ e, fst (end_ self user c w) = Raise e
          ↔ stored_messages w user c = [] ∧ e = NoConversationError c)
  ∧ (∀ index, fst (delete_history self user c index w)
              = Raise (NoConversationError c)
              ↔ stored_messages w user c = []).
Proof.
  rewrite get_eq, history_eq, end_eq. split_and!.
  - intros e. destruct (stored_metadata w user c); simpl; split.
    + discriminate.
    + intros [? _]. discriminate.
    + intros [= <-]. auto.
    + intros [_ ->]. reflexivity.
  - intros e. destruct (stored_messages w user c); simpl; split.
    + intros [= <-]. auto.
    + intros [_ ->]. reflexivity.
    + discriminate.
    + intros [? _]. discriminate.
  - intros e. destruct (stored_messages w user c); simpl; split.
    + intros [= <-]. auto.
    + intros [_ ->]. reflexivity.
    + discriminate.
    + intros [? _]. discriminate.
  - intros index. rewrite delete_history_eq.
    destruct (stored_messages w user c) as [|m log]; simpl; [done|].
    case_decide; simpl; split; discriminate.
Qed.

(** C9, as stated, fails for [get]: after [start], one call through the
    pipeline and the deletion of both turns, the document of the session
    holds its metadata and no turn; the history is empty, [history] raises,
    and [get] still succeeds. *)
Lemma get_succeeds_on_emptied_history :
  cosmos after_deletes
  = {[ ("u1", "c-") := {| item_messages := [];
                          item_metadata := Some sample_meta |} ]}
  ∧ fst (history sample_service "u1" "c-" after_deletes)
    = Raise (NoConversationError "c-")
  ∧ fst (get sample_service "c-" "u1" after_deletes)
    = Ok (sample_config, resumed_chain).
Proof. split_and!; vm_compute; reflexivity. Qed.

(** ** Starting a session *)

(** C2.  [start] never writes to the history store; so the log of the
    returned conversation id is what it was before, and when it was empty,
    as for a fresh id, [history] right after [start] raises
    session-not-found. *)
Theorem start_writes_no_history (self : ConversationService)
    (meta : ConversationMetadata) (prompt_id : string) (w : World) :
  cosmos (snd (start self meta prompt_id w)) = cosmos w
  ∧ ∀ config c chain w' user,
      start self meta prompt_id w = (Ok (config, c, chain), w') →
      stored_messages w' user c = stored_messages w user c
      ∧ (stored_messages w user c = [] →
         fst (history self user c w') = Raise (NoConversationError c)).
Proof.
  split.
  - run_method start.
    destruct (negb (String.eqb prompt_id "default")); simpl; [|reflexivity].
    destruct (prompts self !! prompt_id); reflexivity.
  - intros * Hs. apply start_inv in Hs as (_ & -> & _).
    split; [reflexivity|]. intros Hempty. rewrite history_eq. simpl.
    change (stored_messages (started w meta) user c)
      with (stored_messages w user c).
    by rewrite Hempty.
Qed.

(** C3, as amended.  [start] succeeds for every metadata whenever the prompt
    id is "default" or names a template of the prompt store; the id it
    returns is the next draw of the random source, and a second call returns
    the draw after it.  With any other prompt id the lookup's [KeyError] is
    what [start] raises. *)
Theorem start_succeeds_iff_prompt_known (self : ConversationService)
    (meta : ConversationMetadata) (prompt_id : string) (w : World) :
  (prompt_id = "default" ∨ is_Some (prompts self !! prompt_id) →
   ∃ config chain w',
     start self meta prompt_id w
     = (Ok (config, uuid_source w (entropy w), chain), w')
     ∧ uuid_source w' = uuid_source w
     ∧ entropy w' = S (entropy w))
  ∧ (prompt_id ≠ "default" → prompts self !! prompt_id = None →
     fst (start self meta prompt_id w) = Raise (KeyError prompt_id))
  ∧ (∀ config c chain w' meta2 prompt_id2 config2 c2 chain2 w2,
       start self meta prompt_id w = (Ok (config, c, chain), w') →
       start self meta2 prompt_id2 w' = (Ok (config2, c2, chain2), w2) →
       c = uuid_source w (entropy w) ∧ c2 = uuid_source w (S (entropy w))).
Proof.
  split_and!.
  - intros Hknown.
    destruct (start_known self meta prompt_id w Hknown) as (config & chain & Hs).
    exists config, chain, (started w meta). auto.
  - intros Hid Hp. run_method start.
    apply String.eqb_neq in Hid. rewrite Hid, Hp. reflexivity.
  - intros * Hs1 Hs2.
    apply start_inv in Hs1 as (-> & -> & _).
    apply start_inv in Hs2 as (-> & _). split; reflexivity.
Qed.

(** C3, as stated, fails: a prompt id other than "default" that names no
    stored template makes [start] raise. *)
Lemma start_raises_on_unknown_prompt :
  fst (start sample_service sample_meta "missing" sample_world)
  = Raise (KeyError "missing").
Proof. vm_compute. reflexivity. Qed.

(** ** Resuming a session *)

(** Where the metadata of a new session does reach the store.  [start]
    makes no store call, so a [get] right after it raises session-not-found
    whenever the store held no metadata for the new id; it is the first
    successful call through the returned pipeline, under the returned
    configuration, that persists the metadata, after which [get] for the
    business user succeeds and rebuilds the backend from the provider and
    variant that [start] was given. *)
Theorem get_after_first_turn (self : ConversationService)
    (meta : ConversationMetadata) (prompt_id : string) (w w1 : World)
    (config : Config) (c : string) (chain : RunnableWithMessageHistory) :
  start self meta prompt_id w = (Ok (config, c, chain), w1) →
  (∀ user, stored_metadata w user c = None →
     fst (get self c user w1) = Raise (NoConversationError c))
  ∧ (∀ input text w2,
       invoke self chain input config w1 = (Ok text, w2) →
       ∃ config' w3,
         get self c (business_user meta) w2
         = (Ok (config',
                create_chain self (get_llm (provider meta) (variant meta))
                  [MessagesPlaceholder "history"; HumanInput]), w3)
         ∧ cfg_metadata (configurable config') = model_dump meta).
Proof.
  intros Hs. apply start_inv in Hs as (-> & -> & Hc & _).
  rewrite generate_config_eq in Hc. injection Hc as <-. split.
  - intros user Hnone. rewrite get_eq.
    change (stored_metadata (started w meta) user (uuid_source w (entropy w)))
      with (stored_metadata w user (uuid_source w (entropy w))).
    by rewrite Hnone.
  - intros input text w2 Hi.
    rewrite (invoke_eq _ _ _ _ meta (uuid_source w (entropy w))) in Hi
      by reflexivity.
    destruct (backend _ _ _) as [t|]; [|discriminate].
    injection Hi as <- <-. apply get_stored.
    by rewrite stored_metadata_insert.
Qed.

(** C1, at the failing input.  The claim, like the docstring of [start]
    ("Stores metadata about the conversation"), has a session resumable as
    soon as [start] has returned.  The code is not: [start], run on the
    sample metadata over an empty store, returns the new id "c-" and leaves
    the store empty, and the [get] for "c-" that follows raises
    session-not-found instead of rebuilding the backend. *)
Lemma get_right_after_start_not_found :
  start sample_service sample_meta "default" sample_world
  = (Ok (sample_config, "c-", sample_chain), started sample_world sample_meta)
  ∧ fst (get sample_service "c-" "u1" (started sample_world sample_meta))
    = Raise (NoConversationError "c-").
Proof. split; vm_compute; reflexivity. Qed.

(** * Closed instances

    Each statement above that carries a premise, run on the sample data. *)

Lemma get_after_first_turn_witness :
  fst (get sample_service "c-" "u1" (started sample_world sample_meta))
  = Raise (NoConversationError "c-")
  ∧ ∃ config' w3,
      get sample_service "c-" "u1" after_first_turn
      = (Ok (config',
             create_chain sample_service (get_llm AZURE "v1")
               [MessagesPlaceholder "history"; HumanInput]), w3)
      ∧ cfg_metadata (configurable config') = model_dump sample_meta.
Proof.
  destruct (get_after_first_turn sample_service sample_meta "default"
              sample_world (started sample_world sample_meta)
              sample_config "c-" sample_chain) as [Hbefore Hafter].
  - vm_compute. reflexivity.
  - split.
    + apply (Hbefore "u1"). vm_compute. reflexivity.
    + apply (Hafter "hello" "hi there" after_first_turn).
      vm_compute. reflexivity.
Defined.

Lemma start_writes_no_history_witness :
  cosmos (snd (start sample_service sample_meta "default" sample_world))
  = cosmos sample_world
  ∧ fst (history sample_service "u1" "c-" (started sample_world sample_meta))
    = Raise (NoConversationError "c-").
Proof.
  destruct (start_writes_no_history sample_service sample_meta "default"
              sample_world) as [Hframe Hafter].
  split; [exact Hframe|].
  destruct (Hafter sample_config "c-" sample_chain
              (started sample_world sample_meta) "u1") as [_ Hraise].
  - vm_compute. reflexivity.
  - apply Hraise. vm_compute. reflexivity.
Defined.

Lemma start_succeeds_iff_prompt_known_witness :
  (∃ config chain w',
     start sample_service sample_meta "summary" sample_world
     = (Ok (config, "c-", chain), w')
     ∧ uuid_source w' = sample_uuid ∧ entropy w' = 1)
  ∧ fst (start sample_service sample_meta "missing" sample_world)
    = Raise (KeyError "missing")
  ∧ ("c-" = sample_uuid 0 ∧ "c-i" = sample_uuid 1).
Proof.
  destruct (start_succeeds_iff_prompt_known sample_service sample_meta
              "summary" sample_world) as (Hok & _ & _).
  destruct (start_succeeds_iff_prompt_known sample_service sample_meta
              "missing" sample_world) as (_ & Hraise & _).
  destruct (start_succeeds_iff_prompt_known sample_service sample_meta
              "default" sample_world) as (_ & _ & Hnext).
  split; [|split].
  - apply Hok. right. vm_compute. eexists. reflexivity.
  - apply Hraise; [discriminate|vm_compute; reflexivity].
  - apply (Hnext sample_config "c-" sample_chain
             (started sample_world sample_meta) sample_meta "default"
             {| callbacks := callbacks sample_config;
                configurable := {| cfg_user_id := "u1";
                                   cfg_conversation_id := "c-i";
                                   cfg_metadata := model_dump sample_meta |} |}
             "c-i" sample_chain
             (started (started sample_world sample_meta) sample_meta));
      vm_compute; reflexivity.
Defined.

Lemma end_clears_or_raises_witness :
  (∃ w', end_ sample_service "u1" "c-" after_first_turn = (Ok tt, w')
         ∧ stored_messages w' "u1" "c-" = []
         ∧ ∀ key, key ≠ ("u1", "c-") →
             cosmos w' !! key = cosmos after_first_turn !! key)
  ∧ end_ sample_service "u1" "c-" sample_world
    = (Raise (NoConversationError "c-"), sample_world).
Proof.
  split.
  - apply (end_clears_or_raises sample_service "u1" "c-" after_first_turn).
    vm_compute. discriminate.
  - apply (end_clears_or_raises sample_service "u1" "c-" sample_world).
    vm_compute. reflexivity.
Defined.

Lemma delete_history_cases_witness :
  delete_history sample_service "u1" "c-" 0 sample_world
  = (Raise (NoConversationError "c-"), sample_world)
  ∧ delete_history sample_service "u1" "c-" 2 after_first_turn
    = (Raise IndexError, after_first_turn)
  ∧ ∃ w', delete_history sample_service "u1" "c-" 0 after_first_turn
          = (Ok tt, w')
          ∧ S (length (stored_messages w' "u1" "c-")) = 2.
Proof.
  split_and!.
  - apply (delete_history_cases sample_service "u1" "c-" 0 sample_world).
    vm_compute. reflexivity.
  - apply (delete_history_cases sample_service "u1" "c-" 2 after_first_turn).
    + vm_compute. discriminate.
    + vm_compute. discriminate.
  - destruct (delete_history_cases sample_service "u1" "c-" 0 after_first_turn)
      as (_ & _ & Hin).
    destruct Hin as (w' & Hrun & Hlen & _).
    + vm_compute. split; [discriminate|reflexivity].
    + exists w'. split; [exact Hrun|exact Hlen].
Defined.

Lemma history_lists_the_log_witness :
  ∃ turns,
    history sample_service "u1" "c-" after_first_turn = (Ok turns, after_first_turn)
    ∧ length turns = 2
    ∧ ∃ d, turns !! 1 = Some d
           ∧ d !! "role" = Some "ai"
           ∧ d !! "content" = Some "hi there"
           ∧ dom d = {["role"; "content"]}.
Proof.
  destruct (history_lists_the_log sample_service "u1" "c-" after_first_turn)
    as [_ Hlist].
  destruct Hlist as (turns & Hrun & Hlen & Hturn).
  - vm_compute. discriminate.
  - exists turns. split; [exact Hrun|]. split; [exact Hlen|].
    apply (Hturn 1 (AIMessage "hi there")). vm_compute. reflexivity.
Defined.

Lemma observers_of_configuration_witness :
  callbacks traced_config
  = [LLMMetricsCounter (get_llm AZURE "v1");
     AzureBlockedContentTracker (get_llm AZURE "v1");
     CallbackHandler "u1" "c-"]
  ∧ ∃ meta,
      stored_metadata after_first_turn "u1" "c-" = Some meta
      ∧ callbacks sample_config
        = [LLMMetricsCounter (get_llm AZURE "v1");
           blocked_content_counter (provider meta) (get_llm AZURE "v1")]
          ++ [].
Proof.
  destruct (observers_of_configuration sample_service) as (_ & Hstart & Hget).
  split.
  - apply (Hstart sample_meta "default" traced_world traced_config "c-"
             sample_chain (started traced_world sample_meta)).
    vm_compute. reflexivity.
  - apply (Hget "c-" "u1" after_first_turn sample_config resumed_chain
             (snd (get sample_service "c-" "u1" after_first_turn))).
    vm_compute. reflexivity.
Defined.

Lemma session_not_found_by_operation_witness :
  fst (history sample_service "u1" "c-" after_deletes)
  = Raise (NoConversationError "c-")
  ∧ stored_metadata sample_world "u1" "c-" = None.
Proof.
  destruct (session_not_found_by_operation sample_service "u1" "c-"
              after_deletes) as (_ & Hhistory & _).
  destruct (session_not_found_by_operation sample_service "u1" "c-"
              sample_world) as (Hget & _).
  split.
  - apply (Hhistory (NoConversationError "c-")).
    split; vm_compute; reflexivity.
  - apply (Hget (NoConversationError "c-")). vm_compute. reflexivity.
Defined.

Lemma configuration_addresses_business_user_witness :
  (cfg_user_id (configurable sample_config) = "u1"
   ∧ cfg_conversation_id (configurable sample_config) = "c-")
  ∧ stored_messages after_first_turn "u1" "c-"
    = [HumanMessage "hello"; AIMessage "hi there"]
  ∧ stored_messages after_first_turn "u2" "c-" = [].
Proof.
  destruct (configuration_addresses_business_user sample_service)
    as (_ & Hstart & _ & Hinvoke).
  split.
  - apply (Hstart sample_meta "default" sample_world sample_config "c-"
             sample_chain (started sample_world sample_meta)).
    vm_compute. reflexivity.
  - destruct (Hinvoke sample_meta "c-" (get_llm AZURE "v1") sample_world
                sample_config sample_chain "hello"
                (started sample_world sample_meta) "hi there"
                after_first_turn) as (Hown & _ & Hother).
    + vm_compute. reflexivity.
    + vm_compute. reflexivity.
    + split; [exact Hown|].
      destruct (Hother "u2") as [Hlog _]; [discriminate|exact Hlog].
Defined.

(** * Further properties of the service *)

(** ** Effects of [start] and [get] beside their result *)

Lemma get_run (self : ConversationService) (c user : string) (w : World) :
  get self c user w
  = match stored_metadata w user c with
    | Some meta =>
        (fst (get self c user w),
         {| cosmos := cosmos w; environ := environ w;
            counted := counted w ++ [(COUNT_CHAT_REQUESTS, model_dump meta)];
            uuid_source := uuid_source w; entropy := entropy w;
            backend := backend w |})
    | None => (Raise (NoConversationError c), w)
    end.
Proof.
  unfold get, bind. rewrite get_message_history_stored. simpl.
  destruct (stored_metadata w user c) as [meta|]; reflexivity.
Qed.

(** X1.  [start] fails in one way only: the prompt id is not "default" and
    names no stored template, and the error is the lookup's [KeyError].  A
    failed [start] has drawn an id all the same, and has counted no request
    and changed neither the store nor the environment. *)
Theorem failed_start_counts_nothing (self : ConversationService)
    (meta : ConversationMetadata) (prompt_id : string) (w w' : World)
    (e : Exception) :
  start self meta prompt_id w = (Raise e, w') →
  e = KeyError prompt_id
  ∧ prompt_id ≠ "default"
  ∧ prompts self !! prompt_id = None
  ∧ counted w' = counted w
  ∧ cosmos w' = cosmos w
  ∧ environ w' = environ w
  ∧ entropy w' = S (entropy w).
Proof.
  run_method start.
  destruct (String.eqb prompt_id "default") eqn:Hid; simpl; [discriminate|].
  apply String.eqb_neq in Hid.
  destruct (prompts self !! prompt_id) as [t|] eqn:Hp; simpl; [discriminate|].
  intros [= <- <-]. split_and!; auto.
Qed.

Lemma failed_start_counts_nothing_witness :
  KeyError "missing" = KeyError "missing"
  ∧ "missing" ≠ "default"
  ∧ prompts sample_service !! "missing" = None
  ∧ counted (snd (start sample_service sample_meta "missing" after_first_turn))
    = counted after_first_turn
  ∧ cosmos (snd (start sample_service sample_meta "missing" after_first_turn))
    = cosmos after_first_turn
  ∧ environ (snd (start sample_service sample_meta "missing" after_first_turn))
    = environ after_first_turn
  ∧ entropy (snd (start sample_service sample_meta "missing" after_first_turn))
    = S (entropy after_first_turn).
Proof.
  apply (failed_start_counts_nothing sample_service sample_meta "missing"
           after_first_turn
           (snd (start sample_service sample_meta "missing" after_first_turn))
           (KeyError "missing")).
  vm_compute. reflexivity.
Defined.

(** X2.  The request counter: a [start] that returns has counted exactly one
    chat request, with the dump of the metadata it was given; a [get] that
    returns has counted exactly one, with the dump of the metadata found in
    the store; [history], [end] and [delete_history] never count, whatever
    their outcome. *)
Theorem chat_requests_counted (self : ConversationService) :
  (∀ meta prompt_id w r w',
     start self meta prompt_id w = (Ok r, w') →
     counted w' = counted w ++ [(COUNT_CHAT_REQUESTS, model_dump meta)])
  ∧ (∀ c user w r w',
       get self c user w = (Ok r, w') →
       ∃ meta, stored_metadata w user c = Some meta
               ∧ counted w'
                 = counted w ++ [(COUNT_CHAT_REQUESTS, model_dump meta)])
  ∧ (∀ user c index w,
       counted (snd (history self user c w)) = counted w
       ∧ counted (snd (end_ self user c w)) = counted w
       ∧ counted (snd (delete_history self user c index w)) = counted w).
Proof.
  split_and!.
  - intros meta prompt_id w [[config c] chain] w' Hs.
    apply start_inv in Hs as (_ & -> & _). reflexivity.
  - intros c user w r w'. rewrite get_run.
    destruct (stored_metadata w user c) as [meta|]; [|discriminate].
    intros [= _ <-]. exists meta. split; reflexivity.
  - intros user c index w.
    rewrite history_eq, end_eq, delete_history_eq.
    destruct (stored_messages w user c); simpl; [done|].
    case_decide; done.
Qed.

Lemma chat_requests_counted_witness :
  counted (started sample_world sample_meta)
  = counted sample_world ++ [(COUNT_CHAT_REQUESTS, model_dump sample_meta)]
  ∧ ∃ meta,
      stored_metadata after_first_turn "u1" "c-" = Some meta
      ∧ counted (snd (get sample_service "c-" "u1" after_first_turn))
        = counted after_first_turn ++ [(COUNT_CHAT_REQUESTS, model_dump meta)].
Proof.
  destruct (chat_requests_counted sample_service) as (Hstart & Hget & _).
  split.
  - apply (Hstart sample_meta "default" sample_world
             (sample_config, "c-", sample_chain)).
    vm_compute. reflexivity.
  - apply (Hget "c-" "u1" after_first_turn (sample_config, resumed_chain)).
    vm_compute. reflexivity.
Defined.

(** X3.  No partial effects: whenever [get], [history], [end] or
    [delete_history] raises, the world is exactly what it was before the
    call. *)
Theorem raising_changes_nothing (self : ConversationService)
    (user c : string) (w w' : World) (e : Exception) :
  (get self c user w = (Raise e, w') → w' = w)
  ∧ (history self user c w = (Raise e, w') → w' = w)
  ∧ (end_ self user c w = (Raise e, w') → w' = w)
  ∧ (∀ index, delete_history self user c index w = (Raise e, w') → w' = w).
Proof.
  split_and!.
  - rewrite get_run, get_eq.
    destruct (stored_metadata w user c); [discriminate|]. by intros [= _ <-].
  - rewrite history_eq. by intros [= _ <-].
  - rewrite end_eq. destruct (stored_messages w user c); [|discriminate].
    by intros [= _ <-].
  - intros index. rewrite delete_history_eq.
    destruct (stored_messages w user c); [by intros [= _ <-]|].
    case_decide; [discriminate|]. by intros [= _ <-].
Qed.

Lemma raising_changes_nothing_witness :
  snd (get sample_service "c-" "u1" sample_world) = sample_world
  ∧ snd (delete_history sample_service "u1" "c-" 7 after_first_turn)
    = after_first_turn.
Proof.
  destruct (raising_changes_nothing sample_service "u1" "c-" sample_world
              (snd (get sample_service "c-" "u1" sample_world))
              (NoConversationError "c-")) as (Hget & _).
  destruct (raising_changes_nothing sample_service "u1" "c-" after_first_turn
              (snd (delete_history sample_service "u1" "c-" 7 after_first_turn))
              IndexError) as (_ & _ & _ & Hdelete).
  split.
  - apply Hget. vm_compute. reflexivity.
  - apply (Hdelete 7%Z). vm_compute. reflexivity.
Defined.

(** ** Configurations *)

(** X4.  A configuration always resolves: the three configurable fields that
    [generate_config] writes, passed back to [get_message_history] as the
    pipeline does, validate and give the handle of (business user,
    conversation id) carrying exactly the metadata the configuration was
    generated from; the world is not touched. *)
Theorem configuration_resolves_its_session (self : ConversationService)
    (meta : ConversationMetadata) (c : string) (llm : BaseLanguageModel)
    (w0 w0' w : World) (config : Config) :
  generate_config self meta c llm w0 = (Ok config, w0') →
  get_message_history self
    (cfg_user_id (configurable config))
    (cfg_conversation_id (configurable config))
    (Some (cfg_metadata (configurable config))) w
  = (Ok {| session_id := c;
           user_id := business_user meta;
           messages := stored_messages w (business_user meta) c;
           metadata := Some meta |}, w).
Proof.
  rewrite generate_config_eq. intros [= <- _]. simpl.
  apply get_message_history_supplied.
Qed.

Lemma configuration_resolves_its_session_witness :
  get_message_history sample_service "u1" "c-"
    (Some (model_dump sample_meta)) after_first_turn
  = (Ok {| session_id := "c-";
           user_id := "u1";
           messages := stored_messages after_first_turn "u1" "c-";
           metadata := Some sample_meta |}, after_first_turn).
Proof.
  apply (configuration_resolves_its_session sample_service sample_meta "c-"
           (get_llm AZURE "v1") sample_world sample_world after_first_turn
           sample_config).
  vm_compute. reflexivity.
Defined.

(** X5.  The trace handler and the value of [LANGFUSE_HOST]: a configuration
    holds a trace handler exactly when the variable is set to a non-empty
    string; set to the empty string it counts as unset and the configuration
    has its two observers only.  A trace handler is never stamped with
    anything but the business user and the conversation id. *)
Theorem trace_handler_iff_host_set (self : ConversationService)
    (meta : ConversationMetadata) (c : string) (llm : BaseLanguageModel)
    (w w' : World) (config : Config) :
  generate_config self meta c llm w = (Ok config, w') →
  ((∃ u s, CallbackHandler u s ∈ callbacks config)
   ↔ ∃ host, environ w !! "LANGFUSE_HOST" = Some host ∧ host ≠ "")
  ∧ (environ w !! "LANGFUSE_HOST" = Some "" → length (callbacks config) = 2)
  ∧ (∀ u s, CallbackHandler u s ∈ callbacks config →
       u = business_user meta ∧ s = c).
Proof.
  rewrite generate_config_eq. intros [= <- _]. simpl.
  unfold tracing_configured, truthy.
  assert (∀ u s cbs,
            CallbackHandler u s
            ∈ LLMMetricsCounter llm
              :: blocked_content_counter (provider meta) llm :: cbs →
            CallbackHandler u s ∈ cbs) as Hskip.
  { intros u s cbs Hin.
    apply elem_of_cons in Hin as [Heq|Hin]; [discriminate|].
    apply elem_of_cons in Hin as [Heq|Hin]; [|assumption].
    destruct (provider meta); discriminate. }
  destruct (environ w !! "LANGFUSE_HOST") as [host|] eqn:Hhost.
  - destruct (String.eqb host "") eqn:Hempty; simpl.
    + apply String.eqb_eq in Hempty as ->. split_and!.
      * split.
        -- intros (u & s & Hin). apply Hskip in Hin. by apply elem_of_nil in Hin.
        -- intros (host & [= <-] & Hne). congruence.
      * reflexivity.
      * intros u s Hin. apply Hskip in Hin. by apply elem_of_nil in Hin.
    + apply String.eqb_neq in Hempty. split_and!.
      * split; [eauto|]. intros _. exists (business_user meta), c.
        rewrite !elem_of_cons. auto.
      * intros [= ->]. congruence.
      * intros u s Hin. apply Hskip in Hin.
        apply list_elem_of_singleton in Hin. by injection Hin as -> ->.
  - simpl. split_and!.
    + split.
      * intros (u & s & Hin). apply Hskip in Hin. by apply elem_of_nil in Hin.
      * intros (host & Hhost' & _). discriminate.
    + discriminate.
    + intros u s Hin. apply Hskip in Hin. by apply elem_of_nil in Hin.
Qed.

Lemma trace_handler_iff_host_set_witness :
  (∃ u s, CallbackHandler u s ∈ callbacks traced_config)
  ∧ ("u1" = business_user sample_meta ∧ "c-" = "c-").
Proof.
  destruct (trace_handler_iff_host_set sample_service sample_meta "c-"
              (get_llm AZURE "v1") traced_world traced_world traced_config)
    as (Hiff & _ & Honly).
  - vm_compute. reflexivity.
  - split.
    + apply Hiff. exists "https://trace.example".
      split; [vm_compute; reflexivity|discriminate].
    + apply (Honly "u1" "c-"). unfold traced_config. simpl.
      rewrite !elem_of_cons. auto.
Defined.

(** ** Sessions side by side *)

Lemma stored_metadata_by_document (user c : string) (w1 w2 : World) :
  cosmos w1 !! (user, c) = cosmos w2 !! (user, c) →
  stored_metadata w1 user c = stored_metadata w2 user c.
Proof. intros Hdoc. unfold stored_metadata. by rewrite Hdoc. Qed.

(** What a request on a session answers depends on the world only through
    the session's document and, for [get], the environment. *)
Lemma same_answers_by_document (self : ConversationService) (user c : string)
    (w1 w2 : World) :
  cosmos w1 !! (user, c) = cosmos w2 !! (user, c) →
  environ w1 = environ w2 →
  same_answers self user c w1 w2.
Proof.
  intros Hdoc Henv. split.
  - rewrite !get_eq, (stored_metadata_by_document _ _ _ _ Hdoc).
    unfold tracing_configured. by rewrite Henv.
  - by apply outcomes_by_document.
Qed.

Lemma set_cosmos_same (w : World) : set_cosmos (cosmos w) w = w.
Proof. by destruct w. Qed.

(** Either removal rewrites the session's own document and nothing else;
    its result and the new document are decided by the old document. *)
Lemma remove_shape (self : ConversationService) (user c : string)
    (r : Removal) (w : World) :
  ∃ res doc,
    ∀ w', cosmos w' !! (user, c) = cosmos w !! (user, c) →
          remove self user c r w'
          = (res, set_cosmos (partial_alter (λ _, doc) (user, c) (cosmos w')) w').
Proof.
  destruct r as [|index]; simpl.
  - destruct (stored_messages w user c) as [|m log] eqn:Hlog.
    + exists (Raise (NoConversationError c)), (cosmos w !! (user, c)).
      intros w' Hdoc.
      rewrite end_eq, (stored_messages_by_document _ _ _ _ Hdoc), Hlog, <- Hdoc.
      by rewrite partial_alter_self, set_cosmos_same.
    + exists (Ok tt), None. intros w' Hdoc.
      by rewrite end_eq, (stored_messages_by_document _ _ _ _ Hdoc), Hlog.
  - destruct (stored_messages w user c) as [|m log] eqn:Hlog.
    + exists (Raise (NoConversationError c)), (cosmos w !! (user, c)).
      intros w' Hdoc.
      rewrite delete_history_eq, (stored_messages_by_document _ _ _ _ Hdoc),
        Hlog, <- Hdoc.
      by rewrite partial_alter_self, set_cosmos_same.
    + destruct (decide (0 <= index < Z.of_nat (length (m :: log)))%Z) as [Hin|Hout].
      * exists (Ok tt),
          (Some {| item_messages := delete (Z.to_nat index) (m :: log);
                   item_metadata := stored_metadata w user c |}).
        intros w' Hdoc.
        rewrite delete_history_eq, (stored_messages_by_document _ _ _ _ Hdoc),
          (stored_metadata_by_document _ _ _ _ Hdoc), Hlog.
        by rewrite decide_True.
      * exists (Raise IndexError), (cosmos w !! (user, c)).
        intros w' Hdoc.
        rewrite delete_history_eq, (stored_messages_by_document _ _ _ _ Hdoc),
          Hlog, <- Hdoc.
        rewrite decide_False by done.
        by rewrite partial_alter_self, set_cosmos_same.
Qed.

(** X6.  Requests that read do not disturb: after [start], [get] or
    [history], with any arguments and whatever their outcome, every session
    answers [get], [history], [end] and [delete_history] as it did before.
    In particular [get] and [history] can be repeated with the same
    answer. *)
Theorem reads_change_no_answer (self : ConversationService)
    (user c user2 c2 : string) (w : World) :
  same_answers self user2 c2 (snd (get self c user w)) w
  ∧ same_answers self user2 c2 (snd (history self user c w)) w
  ∧ ∀ meta prompt_id,
      same_answers self user2 c2 (snd (start self meta prompt_id w)) w.
Proof.
  split_and!.
  - rewrite get_run.
    destruct (stored_metadata w user c); by apply same_answers_by_document.
  - rewrite history_eq. by apply same_answers_by_document.
  - intros meta prompt_id. apply same_answers_by_document.
    + f_equal. run_method start.
      destruct (negb (String.eqb prompt_id "default")); simpl; [|reflexivity].
      destruct (prompts self !! prompt_id); reflexivity.
    + run_method start.
      destruct (negb (String.eqb prompt_id "default")); simpl; [|reflexivity].
      destruct (prompts self !! prompt_id); reflexivity.
Qed.

(** X7.  Sessions do not interfere: ending a session or deleting one of its
    turns, whatever the outcome, leaves every other session, be it another
    conversation id or the same id under another user, answering [get],
    [history], [end] and [delete_history] as before. *)
Theorem removal_leaves_other_sessions (self : ConversationService)
    (user c user2 c2 : string) (r : Removal) (w : World) :
  (user, c) ≠ (user2, c2) →
  same_answers self user2 c2 (snd (remove self user c r w)) w.
Proof.
  intros Hne. destruct (remove_shape self user c r w) as (res & doc & Hrun).
  rewrite Hrun by reflexivity. apply same_answers_by_document; [|reflexivity].
  simpl. by apply lookup_partial_alter_ne.
Qed.

Lemma removal_leaves_other_sessions_witness :
  same_answers sample_service "u2" "c-i"
    (snd (remove sample_service "u1" "c-" EndSession two_sessions))
    two_sessions.
Proof.
  apply (removal_leaves_other_sessions sample_service "u1" "c-" "u2" "c-i"
           EndSession two_sessions).
  discriminate.
Defined.

(** X8.  Removals on different sessions commute: applied in either order
    they return the same results and leave the same world. *)
Theorem removals_commute (self : ConversationService)
    (user c user2 c2 : string) (a b : Removal) (w : World) :
  (user, c) ≠ (user2, c2) →
  fst (remove self user2 c2 b (snd (remove self user c a w)))
  = fst (remove self user2 c2 b w)
  ∧ fst (remove self user c a (snd (remove self user2 c2 b w)))
    = fst (remove self user c a w)
  ∧ snd (remove self user2 c2 b (snd (remove self user c a w)))
    = snd (remove self user c a (snd (remove self user2 c2 b w))).
Proof.
  intros Hne.
  destruct (remove_shape self user c a w) as (ra & da & Ha).
  destruct (remove_shape self user2 c2 b w) as (rb & db & Hb).
  rewrite (Ha w), (Hb w) by reflexivity. simpl.
  rewrite Ha, Hb; simpl; try by apply lookup_partial_alter_ne.
  split_and!; [reflexivity..|].
  unfold set_cosmos. simpl. f_equal.
  apply partial_alter_partial_alter_ne. congruence.
Qed.

Lemma removals_commute_witness :
  fst (remove sample_service "u2" "c-i" (DeleteTurn 0)
         (snd (remove sample_service "u1" "c-" EndSession two_sessions)))
  = fst (remove sample_service "u2" "c-i" (DeleteTurn 0) two_sessions)
  ∧ fst (remove sample_service "u1" "c-" EndSession
           (snd (remove sample_service "u2" "c-i" (DeleteTurn 0) two_sessions)))
    = fst (remove sample_service "u1" "c-" EndSession two_sessions)
  ∧ snd (remove sample_service "u2" "c-i" (DeleteTurn 0)
           (snd (remove sample_service "u1" "c-" EndSession two_sessions)))
    = snd (remove sample_service "u1" "c-" EndSession
             (snd (remove sample_service "u2" "c-i" (DeleteTurn 0) two_sessions))).
Proof.
  apply (removals_commute sample_service "u1" "c-" "u2" "c-i"
           EndSession (DeleteTurn 0) two_sessions).
  discriminate.
Defined.

(** ** Requests in sequence on one session *)

(** X9.  [history] after a deletion: when [delete_history] returns, the
    session's [history] is what it answered before with the entry at that
    index taken out, and it raises session-not-found when that entry was the
    only one.  The metadata stays, so [get] answers as before, also for a
    session whose last turn was just deleted. *)
Theorem history_after_delete (self : ConversationService)
    (user c : string) (index : Z) (w w' : World) :
  delete_history self user c index w = (Ok tt, w') →
  ∃ turns,
    fst (history self user c w) = Ok turns
    ∧ fst (history self user c w')
      = match delete (Z.to_nat index) turns with
        | [] => Raise (NoConversationError c)
        | _ :: _ => Ok (delete (Z.to_nat index) turns)
        end
    ∧ fst (get self c user w') = fst (get self c user w).
Proof.
  rewrite delete_history_eq.
  destruct (stored_messages w user c) as [|m log] eqn:Hlog; [discriminate|].
  case_decide; [|discriminate]. intros [= <-].
  exists (_message_to_dict self <$> m :: log). split_and!.
  - by rewrite history_eq, Hlog.
  - rewrite history_eq, stored_messages_insert. simpl item_messages.
    rewrite <- list_fmap_delete.
    by destruct (delete (Z.to_nat index) (m :: log)).
  - rewrite !get_eq, stored_metadata_insert. reflexivity.
Qed.

Lemma history_after_delete_witness :
  ∃ turns,
    fst (history sample_service "u1" "c-" after_first_turn) = Ok turns
    ∧ fst (history sample_service "u1" "c-"
             (snd (delete_history sample_service "u1" "c-" 0 after_first_turn)))
      = match delete (Z.to_nat 0) turns with
        | [] => Raise (NoConversationError "c-")
        | _ :: _ => Ok (delete (Z.to_nat 0) turns)
        end
    ∧ fst (get sample_service "c-" "u1"
             (snd (delete_history sample_service "u1" "c-" 0 after_first_turn)))
      = fst (get sample_service "c-" "u1" after_first_turn).
Proof.
  apply (history_after_delete sample_service "u1" "c-" 0 after_first_turn
           (snd (delete_history sample_service "u1" "c-" 0 after_first_turn))).
  vm_compute. reflexivity.
Defined.

(** X10.  An ended session is gone: when [end] returns, the session has no
    document left, and [get], [history], [end] and [delete_history] all
    raise session-not-found for it. *)
Theorem ended_session_is_gone (self : ConversationService)
    (user c : string) (w w' : World) :
  end_ self user c w = (Ok tt, w') →
  cosmos w' !! (user, c) = None
  ∧ fst (get self c user w') = Raise (NoConversationError c)
  ∧ fst (history self user c w') = Raise (NoConversationError c)
  ∧ fst (end_ self user c w') = Raise (NoConversationError c)
  ∧ ∀ index,
      fst (delete_history self user c index w') = Raise (NoConversationError c).
Proof.
  rewrite end_eq.
  destruct (stored_messages w user c) as [|m log]; [discriminate|].
  intros [= <-].
  assert (cosmos (set_cosmos (delete (user, c) (cosmos w)) w) !! (user, c)
          = None) as Hgone by (simpl; apply lookup_delete_eq).
  split; [exact Hgone|].
  rewrite get_eq, history_eq, end_eq.
  unfold stored_metadata. rewrite stored_messages_delete, Hgone.
  split_and!; try reflexivity.
  intros index. by rewrite delete_history_eq, stored_messages_delete.
Qed.

Lemma ended_session_is_gone_witness :
  cosmos (snd (end_ sample_service "u1" "c-" after_first_turn)) !! ("u1", "c-")
  = None
  ∧ fst (get sample_service "c-" "u1"
           (snd (end_ sample_service "u1" "c-" after_first_turn)))
    = Raise (NoConversationError "c-")
  ∧ fst (history sample_service "u1" "c-"
           (snd (end_ sample_service "u1" "c-" after_first_turn)))
    = Raise (NoConversationError "c-")
  ∧ fst (end_ sample_service "u1" "c-"
           (snd (end_ sample_service "u1" "c-" after_first_turn)))
    = Raise (NoConversationError "c-")
  ∧ ∀ index,
      fst (delete_history sample_service "u1" "c-" index
             (snd (end_ sample_service "u1" "c-" after_first_turn)))
      = Raise (NoConversationError "c-").
Proof.
  apply (ended_session_is_gone sample_service "u1" "c-" after_first_turn
           (snd (end_ sample_service "u1" "c-" after_first_turn))).
  vm_compute. reflexivity.
Defined.

(** ** Templates of the two pipelines *)

(** X12.  The pipeline that [start] returns is bound to the prompt id and
    renders the system message followed by one human template: the
    pass-through of the input when the id is "default", even if the prompt
    store holds a template under that very key, and the stored template
    otherwise; it has no place for prior turns.  The pipeline that [get]
    returns is bound to no prompt id and holds the history placeholder,
    named by the chain's own history key, followed by the pass-through; the
    system message and the template of [start] are not in it. *)
Theorem templates_of_pipelines (self : ConversationService) :
  (∀ meta prompt_id w config c chain w',
     start self meta prompt_id w = (Ok (config, c, chain), w') →
     chain_prompt_id chain = Some prompt_id
     ∧ ∃ second,
         chain_prompt chain = [Fixed SYSTEM_MESSAGE; second]
         ∧ (prompt_id = "default" → second = HumanInput)
         ∧ (prompt_id ≠ "default" →
            ∃ t, prompts self !! prompt_id = Some t
                 ∧ second = HumanMessagePromptTemplate t))
  ∧ (∀ c user w config chain w',
       get self c user w = (Ok (config, chain), w') →
       chain_prompt_id chain = None
       ∧ chain_prompt chain
         = [MessagesPlaceholder (history_messages_key chain); HumanInput]).
Proof.
  split.
  - intros meta prompt_id w config c chain w'. run_method start.
    destruct (String.eqb prompt_id "default") eqn:Hid; simpl.
    + apply String.eqb_eq in Hid. intros [= _ _ <- _]. simpl.
      split; [reflexivity|]. exists HumanInput. split_and!; [done..|].
      intros Hne. by destruct Hne.
    + apply String.eqb_neq in Hid.
      destruct (prompts self !! prompt_id) as [t|] eqn:Hp; simpl; [|discriminate].
      intros [= _ _ <- _]. simpl. split; [reflexivity|].
      exists (HumanMessagePromptTemplate t). split_and!; [done..|].
      intros _. eauto.
  - intros c user w config chain w'. unfold get, bind.
    rewrite get_message_history_stored. simpl.
    destruct (stored_metadata w user c) as [meta|]; [|discriminate].
    unfold increment, ret. simpl. intros [= _ <- _]. split; reflexivity.
Qed.

Lemma templates_of_pipelines_witness :
  (chain_prompt_id sample_chain = Some "default"
   ∧ ∃ second,
       chain_prompt sample_chain = [Fixed SYSTEM_MESSAGE; second]
       ∧ ("default" = "default" → second = HumanInput)
       ∧ ("default" ≠ "default" →
          ∃ t, prompts sample_service !! "default" = Some t
               ∧ second = HumanMessagePromptTemplate t))
  ∧ (chain_prompt_id resumed_chain = None
     ∧ chain_prompt resumed_chain
       = [MessagesPlaceholder (history_messages_key resumed_chain); HumanInput]).
Proof.
  destruct (templates_of_pipelines sample_service) as [Hstart Hget].
  split.
  - apply (Hstart sample_meta "default" sample_world sample_config "c-"
             sample_chain (started sample_world sample_meta)).
    vm_compute. reflexivity.
  - apply (Hget "c-" "u1" after_first_turn sample_config resumed_chain
             (snd (get sample_service "c-" "u1" after_first_turn))).
    vm_compute. reflexivity.
Defined.
